(** * House records API: a shallow embedding of [main.py]

    The program keeps one process-wide list of house records
    ([data_records]) and serves five request handlers over it.  Each
    handler is embedded as a function from the current list to a response
    (or a raised exception) together with the list it leaves behind.

    Python [int] is [Z], Python [float] is the kernel's binary64 [float],
    Python [str] is [string] (read as ASCII text), and [Optional[T]] is
    [option T]. *)

From Stdlib Require Import ZArith String Ascii Floats.PrimFloat.
From stdpp Require Import base numbers option list strings sorting.

Open Scope Z_scope.

(** ** Data model *)

(** The nineteen columns of a house.  The type of the [id] column is a
    parameter: the request body ([class House]) carries [Optional[int]],
    the dictionaries held in [data_records] carry an [int], and a row of
    the CSV file carries none. *)
Record HouseOf (I : Type) : Type := mkHouse {
  id : I;
  date : string;
  price : float;
  bedrooms : float;
  bathrooms : float;
  sqft_living : Z;
  sqft_lot : Z;
  floors : float;
  waterfront : Z;
  view : Z;
  condition : Z;
  sqft_above : Z;
  sqft_basement : Z;
  yr_built : Z;
  yr_renovated : Z;
  street : string;
  city : string;
  statezip : string;
  country : string
}.

Arguments mkHouse {I}.
Arguments id {I}.
Arguments date {I}.
Arguments price {I}.
Arguments bedrooms {I}.
Arguments bathrooms {I}.
Arguments sqft_living {I}.
Arguments sqft_lot {I}.
Arguments floors {I}.
Arguments waterfront {I}.
Arguments view {I}.
Arguments condition {I}.
Arguments sqft_above {I}.
Arguments sqft_basement {I}.
Arguments yr_built {I}.
Arguments yr_renovated {I}.
Arguments street {I}.
Arguments city {I}.
Arguments statezip {I}.
Arguments country {I}.

(** [class House(BaseModel)], with [id: Optional[int]]. *)
Abbreviation House := (HouseOf (option Z)).

(** An element of [data_records]: [house.dict()] after ["id"] was set. *)
Abbreviation Row := (HouseOf Z).

(** A line of the CSV file, before [data["id"] = data.index]. *)
Abbreviation CsvRow := (HouseOf unit).

(** [house_data = house.dict(); house_data["id"] = n]: every column is
    carried over and the [id] column is overwritten. *)
Definition set_id {I J : Type} (h : HouseOf I) (n : J) : HouseOf J :=
  {| id := n;
     date := date h;
     price := price h;
     bedrooms := bedrooms h;
     bathrooms := bathrooms h;
     sqft_living := sqft_living h;
     sqft_lot := sqft_lot h;
     floors := floors h;
     waterfront := waterfront h;
     view := view h;
     condition := condition h;
     sqft_above := sqft_above h;
     sqft_basement := sqft_basement h;
     yr_built := yr_built h;
     yr_renovated := yr_renovated h;
     street := street h;
     city := city h;
     statezip := statezip h;
     country := country h |}.

(** Two records agree on every column other than [id]. *)
Definition same_fields {I J : Type} (a : HouseOf I) (b : HouseOf J) : Prop :=
  date a = date b ∧ price a = price b ∧ bedrooms a = bedrooms b ∧
  bathrooms a = bathrooms b ∧ sqft_living a = sqft_living b ∧
  sqft_lot a = sqft_lot b ∧ floors a = floors b ∧
  waterfront a = waterfront b ∧ view a = view b ∧
  condition a = condition b ∧ sqft_above a = sqft_above b ∧
  sqft_basement a = sqft_basement b ∧ yr_built a = yr_built b ∧
  yr_renovated a = yr_renovated b ∧ street a = street b ∧
  city a = city b ∧ statezip a = statezip b ∧ country a = country b.

(** The ids held by a store, in store order:
    [[d["id"] for d in data_records]]. *)
Definition ids (data_records : list Row) : list Z := id <$> data_records.

(** The invariant of the data model: no two records share an id. *)
Definition unique_ids (data_records : list Row) : Prop := NoDup (ids data_records).

(** Lines 7 to 14: the rows of the CSV file, each given its 0-based
    position as id. *)
Definition load_records (data : list CsvRow) : list Row :=
  imap (λ i row, set_id row (Z.of_nat i)) data.

(** ** Python primitives used by the handlers *)

(** [str.lower] on ASCII text: the letters A to Z move to a to z. *)
Definition lower_ascii (c : ascii) : ascii :=
  let n := N_of_ascii c in
  if ((65 <=? n) && (n <=? 90))%N then ascii_of_N (n + 32) else c.

Fixpoint lower (s : string) : string :=
  match s with
  | EmptyString => EmptyString
  | String c s' => String (lower_ascii c) (lower s')
  end.

(** Truth value of a string in [if s:]: the empty string is false. *)
Definition str_truthy (s : string) : bool :=
  match s with
  | EmptyString => false
  | String _ _ => true
  end.

(** [max(xs)]: [None] stands for the [ValueError] of an empty argument. *)
Definition py_max (xs : list Z) : option Z :=
  match xs with
  | [] => None
  | x :: xs' => Some (foldl Z.max x xs')
  end.

(** How a slice bound is brought into [0 .. len]: a negative bound counts
    from the end, and everything is clamped. *)
Definition slice_index (len i : Z) : Z :=
  if i <? 0 then Z.max (i + len) 0 else Z.min i len.

(** [l[start:stop]]. *)
Definition py_slice {A : Type} (l : list A) (start stop : Z) : list A :=
  let len := Z.of_nat (length l) in
  let lo := slice_index len start in
  let hi := slice_index len stop in
  take (Z.to_nat (hi - lo)) (drop (Z.to_nat lo) l).

(** ** Exceptions and handler results *)

(** [HTTPException] is what the handlers raise themselves, [ValueError]
    is what [max] raises on an empty list, and [RequestValidationError] is
    what the framework raises (answered with status 422) when a declared
    constraint on a query parameter is violated. *)
Inductive exn : Type :=
  | HTTPException (status_code : Z) (detail : string)
  | ValueError
  | RequestValidationError.

(** What a handler leaves: the response or the exception raised, and the
    contents of [data_records] afterwards. *)
Definition outcome (A : Type) : Type := (exn + A) * list Row.

Definition not_found : exn := HTTPException 404 "House not found"%string.

(** ** [get_houses] *)

(** The four comprehension conditions. *)
Definition city_is (c : string) (d : Row) : Prop := lower (city d) = lower c.
Definition statezip_is (z : string) (d : Row) : Prop := lower (statezip d) = lower z.
Definition price_ge (m : float) (d : Row) : Prop := PrimFloat.leb m (price d) = true.
Definition price_le (m : float) (d : Row) : Prop := PrimFloat.leb (price d) m = true.

Global Instance city_is_dec c d : Decision (city_is c d).
Proof. unfold city_is. apply _. Defined.
Global Instance statezip_is_dec z d : Decision (statezip_is z d).
Proof. unfold statezip_is. apply _. Defined.
Global Instance price_ge_dec m d : Decision (price_ge m d).
Proof. unfold price_ge. apply _. Defined.
Global Instance price_le_dec m d : Decision (price_le m d).
Proof. unfold price_le. apply _. Defined.

(** Lines 52 to 64: the filters, applied one after the other. *)
Definition apply_filters (city statezip : option string)
    (price_min price_max : option float) (data_records : list Row) : list Row :=
  let filtered_data := data_records in
  let filtered_data :=
    match city with
    | Some c => if str_truthy c then filter (city_is c) filtered_data else filtered_data
    | None => filtered_data
    end in
  let filtered_data :=
    match statezip with
    | Some z => if str_truthy z then filter (statezip_is z) filtered_data else filtered_data
    | None => filtered_data
    end in
  let filtered_data :=
    match price_min with
    | Some m => filter (price_ge m) filtered_data
    | None => filtered_data
    end in
  let filtered_data :=
    match price_max with
    | Some m => filter (price_le m) filtered_data
    | None => filtered_data
    end in
  filtered_data.

(** The body of [get_houses], on parameters that passed validation. *)
Definition get_houses (page size : Z) (city statezip : option string)
    (price_min price_max : option float) (data_records : list Row) : list Row :=
  let filtered_data := apply_filters city statezip price_min price_max data_records in
  let start := (page - 1) * size in
  let end_ := start + size in
  py_slice filtered_data start end_.

(** The constraints declared on the query parameters:
    [page: Query(1, gt=0)], [size: Query(10, le=100)]. *)
Definition query_ok (page size : Z) : bool := (0 <? page) && (size <=? 100).

(** The route as a client sees it: defaults filled in, the request
    refused when a constraint is violated, and [data_records] never
    touched. *)
Definition houses_route (page size : option Z) (city statezip : option string)
    (price_min price_max : option float) (data_records : list Row)
    : outcome (list Row) :=
  let page := default 1 page in
  let size := default 10 size in
  if query_ok page size
  then (inr (get_houses page size city statezip price_min price_max data_records),
        data_records)
  else (inl RequestValidationError, data_records).

(** ** [create_house] *)

Definition create_house (house : House) (data_records : list Row) : outcome Row :=
  match py_max (ids data_records) with
  | None => (inl ValueError, data_records)
  | Some m =>
      let new_id := m + 1 in
      let house_data := set_id house new_id in
      (inr house_data, data_records ++ [house_data])
  end.

(** ** [get_house] *)

Definition has_id (house_id : Z) (d : Row) : Prop := id d = house_id.

Global Instance has_id_dec house_id d : Decision (has_id house_id d).
Proof. unfold has_id. apply _. Defined.

Definition get_house (house_id : Z) (data_records : list Row) : outcome Row :=
  match list_find (has_id house_id) data_records with
  | Some (_, house) => (inr house, data_records)
  | None => (inl not_found, data_records)
  end.

(** ** [update_house] *)

Definition update_house (house_id : Z) (updated_house : House)
    (data_records : list Row) : outcome Row :=
  match list_find (has_id house_id) data_records with
  | Some (i, _) =>
      let updated_data := set_id updated_house house_id in
      (inr updated_data, <[i := updated_data]> data_records)
  | None => (inl not_found, data_records)
  end.

(** ** [delete_house] *)

(** The body [{"message": "House deleted"}]. *)
Definition deleted_message : string := "House deleted"%string.

Definition delete_house (house_id : Z) (data_records : list Row) : outcome string :=
  match list_find (has_id house_id) data_records with
  | Some (i, _) => (inr deleted_message, delete i data_records)
  | None => (inl not_found, data_records)
  end.

(** ** The stores the program can hold *)

(** A store is reachable when it is what the start-up code loads, or what a
    handler leaves of a reachable store.  ([get_house] and [get_houses]
    leave the store as it is.) *)
Inductive reachable : list Row → Prop :=
  | reach_load (data : list CsvRow) :
      reachable (load_records data)
  | reach_create (house : House) (s : list Row) :
      reachable s → reachable (snd (create_house house s))
  | reach_update (house_id : Z) (house : House) (s : list Row) :
      reachable s → reachable (snd (update_house house_id house s))
  | reach_delete (house_id : Z) (s : list Row) :
      reachable s → reachable (snd (delete_house house_id s)).

(** ** The five routes *)

(** A request names a route of [app] with the arguments the framework
    hands to its handler. *)
Inductive request : Type :=
  | GetHouses (page size : option Z) (city statezip : option string)
      (price_min price_max : option float)
  | CreateHouse (house : House)
  | GetHouse (house_id : Z)
  | UpdateHouse (house_id : Z) (updated_house : House)
  | DeleteHouse (house_id : Z).

(** What serving one request leaves in [data_records].  An exception ends
    the request, not the process: the list stays as the handler left it. *)
Definition serve (req : request) (data_records : list Row) : list Row :=
  match req with
  | GetHouses page size city statezip price_min price_max =>
      snd (houses_route page size city statezip price_min price_max data_records)
  | CreateHouse house => snd (create_house house data_records)
  | GetHouse house_id => snd (get_house house_id data_records)
  | UpdateHouse house_id updated_house =>
      snd (update_house house_id updated_house data_records)
  | DeleteHouse house_id => snd (delete_house house_id data_records)
  end.

(** Requests served one after the other, from the first. *)
Definition serve_all (reqs : list request) (data_records : list Row) : list Row :=
  foldl (λ s req, serve req s) data_records reqs.

(** The first record of the list that carries the id, if any: what the
    scans of [get_house], [update_house] and [delete_house] stop at. *)
Definition first_with_id (house_id : Z) (s : list Row) : option Row :=
  snd <$> list_find (has_id house_id) s.

(** ** Readings of the spec *)

(** What the claim reads as "every supplied filter holds of [d]": a
    supplied city or statezip equals the record's up to case, a supplied
    bound is met by the record's price. *)
Definition meets_supplied (c z : option string) (lo hi : option float)
    (d : Row) : Prop :=
  (∀ c', c = Some c' → lower (city d) = lower c') ∧
  (∀ z', z = Some z' → lower (statezip d) = lower z') ∧
  (∀ m, lo = Some m → PrimFloat.leb m (price d) = true) ∧
  (∀ m, hi = Some m → PrimFloat.leb (price d) m = true).

(** The same, with a city or statezip counting only when it is not the
    empty string. *)
Definition meets_applied (c z : option string) (lo hi : option float)
    (d : Row) : Prop :=
  (∀ c', c = Some c' → c' ≠ EmptyString → lower (city d) = lower c') ∧
  (∀ z', z = Some z' → z' ≠ EmptyString → lower (statezip d) = lower z') ∧
  (∀ m, lo = Some m → PrimFloat.leb m (price d) = true) ∧
  (∀ m, hi = Some m → PrimFloat.leb (price d) m = true).

(** The records of [l] at the positions [a], [a + 1], ..., [b - 1], in that
    order; a position outside [l] holds no record.  This is the reading of
    "the slice from [a] to [b]" by positions. *)
Definition positions {A : Type} (l : list A) (a b : Z) : list A :=
  omap (λ i : Z, if decide (0 ≤ i) then l !! Z.to_nat i else None)
       (seqZ a (b - a)).

(** ** Sample data *)

Definition csv_row (c z : string) (p : float) : CsvRow :=
  mkHouse tt "2014-05-02 00:00:00" p 3 1.5 1340 7912 1.5 0 0 3 1340 0 1955 2005
    "18810 Densmore Ave N" c z "USA".

Definition body (c : string) (p : float) : House :=
  mkHouse None "2014-06-10 00:00:00" p 4 2.5 2100 5000 2 0 0 4 2100 0 1999 0
    "9 Elm St" c "TX 75001" "USA".

(** Two rows as the start-up code leaves them, with ids 0 and 1. *)
Definition two_rows : list Row :=
  load_records [csv_row "Seattle" "WA 98133" 313000; csv_row "Kent" "WA 98042" 342000].

(** The store [two_rows] after one more record was created: ids 0, 1, 2. *)
Definition three_rows : list Row :=
  snd (create_house (body "Dallas" 250000) two_rows).

(** * Properties *)

(** ** Searching by id *)

Lemma find_id_Some (house_id : Z) (s : list Row) (i : nat) (r : Row) :
  list_find (has_id house_id) s = Some (i, r) →
  s !! i = Some r ∧ id r = house_id ∧
  ∀ j y, s !! j = Some y → (j < i)%nat → id y ≠ house_id.
Proof.
  intros Hf. apply list_find_Some in Hf as (Hi & Hr & Hbefore).
  split_and!; [done | done |]. intros j y Hj Hlt. by apply (Hbefore j y).
Qed.

Lemma find_id_None (house_id : Z) (s : list Row) :
  list_find (has_id house_id) s = None ↔ house_id ∉ ids s.
Proof.
  rewrite list_find_None, Forall_forall. unfold ids, has_id. split.
  - intros Hall (r & -> & Hr)%list_elem_of_fmap. by apply (Hall r).
  - intros Hnot r Hr Heq. apply Hnot. subst. by apply list_elem_of_fmap_2.
Qed.

Lemma find_id_is_Some (house_id : Z) (s : list Row) :
  house_id ∈ ids s → ∃ i r, list_find (has_id house_id) s = Some (i, r).
Proof.
  intros Hin. destruct (list_find (has_id house_id) s) as [[i r]|] eqn:Hf.
  - by exists i, r.
  - by apply find_id_None in Hf.
Qed.

(** ** The maximum of a list of ids *)

Lemma foldl_max_ge (xs : list Z) (a : Z) :
  a ≤ foldl Z.max a xs ∧ ∀ x, x ∈ xs → x ≤ foldl Z.max a xs.
Proof.
  revert a. induction xs as [|y ys IH]; intros a; simpl.
  - split; [lia | intros x Hx; by apply elem_of_nil in Hx].
  - destruct (IH (Z.max a y)) as [Hacc Hrest]. split; [lia |].
    intros x [-> | Hx]%elem_of_cons; [lia | by apply Hrest].
Qed.

Lemma foldl_max_elem (xs : list Z) (a : Z) :
  foldl Z.max a xs = a ∨ foldl Z.max a xs ∈ xs.
Proof.
  revert a. induction xs as [|y ys IH]; intros a; simpl; [by left |].
  destruct (IH (Z.max a y)) as [Heq | Hin].
  - rewrite Heq. destruct (Z.max_spec a y) as [[_ ->] | [_ ->]];
      [right; apply elem_of_cons; by left | by left].
  - right. apply elem_of_cons. by right.
Qed.

Lemma py_max_spec (xs : list Z) (m : Z) :
  py_max xs = Some m ↔ m ∈ xs ∧ ∀ x, x ∈ xs → x ≤ m.
Proof.
  destruct xs as [|a xs]; simpl.
  - split; [done | intros [H _]; by apply elem_of_nil in H].
  - destruct (foldl_max_ge xs a) as [Ha Hxs].
    split.
    + intros [= <-]. split.
      * destruct (foldl_max_elem xs a) as [-> | Hin]; apply elem_of_cons; auto.
      * intros x [-> | Hx]%elem_of_cons; auto.
    + intros [Hin Hub]. f_equal. apply Z.le_antisymm.
      * destruct (foldl_max_elem xs a) as [-> | Hin'].
        -- apply Hub, elem_of_cons; by left.
        -- apply Hub, elem_of_cons; by right.
      * apply elem_of_cons in Hin as [-> | Hin]; auto.
Qed.

Lemma py_max_None (xs : list Z) : py_max xs = None ↔ xs = [].
Proof. by destruct xs. Qed.

Lemma ids_nil (s : list Row) : ids s = [] ↔ s = [].
Proof. unfold ids. by destruct s. Qed.

Lemma py_max_ids_is_Some (s : list Row) : s ≠ [] → ∃ m, py_max (ids s) = Some m.
Proof.
  intros Hne. destruct (py_max (ids s)) as [m|] eqn:Hm; [by exists m |].
  by apply py_max_None, ids_nil in Hm.
Qed.

(** ** [set_id] *)

Lemma set_id_id {I J : Type} (h : HouseOf I) (n : J) : id (set_id h n) = n.
Proof. reflexivity. Qed.

Lemma set_id_same_fields {I J : Type} (h : HouseOf I) (n : J) :
  same_fields (set_id h n) h.
Proof. unfold same_fields; simpl. repeat split. Qed.

(** ** What [create_house] does *)

Lemma create_house_Some (h : House) (s : list Row) (m : Z) :
  py_max (ids s) = Some m →
  create_house h s = (inr (set_id h (m + 1)), s ++ [set_id h (m + 1)]).
Proof. intros Hm. unfold create_house. by rewrite Hm. Qed.

Lemma create_house_fresh (h : House) (s s' : list Row) (r : Row) :
  create_house h s = (inr r, s') → ∀ x, x ∈ ids s → x < id r.
Proof.
  unfold create_house. destruct (py_max (ids s)) as [m|] eqn:Hm; [|done].
  intros [= <- <-] x Hx. apply py_max_spec in Hm as [_ Hub].
  specialize (Hub x Hx). simpl. lia.
Qed.

Lemma get_house_last (s : list Row) (r : Row) :
  id r ∉ ids s → get_house (id r) (s ++ [r]) = (inr r, s ++ [r]).
Proof.
  intros Hfresh. unfold get_house.
  apply find_id_None in Hfresh.
  rewrite (list_find_app_r _ _ _ Hfresh). simpl.
  rewrite decide_True; [done | reflexivity].
Qed.

(** ** Create *)

(** C1. On a non-empty store, [create_house h] answers with a record that
    carries every column of [h] but the id, whose id occurs nowhere in the
    store it was given, and [get_house] on that id then answers with the
    very same record. *)
Theorem create_then_get (h : House) (s : list Row) :
  s ≠ [] →
  ∃ r : Row,
    create_house h s = (inr r, s ++ [r]) ∧
    same_fields r h ∧
    (id r ∉ ids s) ∧
    get_house (id r) (s ++ [r]) = (inr r, s ++ [r]).
Proof.
  intros Hne. destruct (py_max_ids_is_Some s Hne) as [m Hm].
  pose proof (create_house_Some h s m Hm) as Hc.
  exists (set_id h (m + 1)).
  assert (Hfresh : id (set_id h (m + 1)) ∉ ids s).
  { intros Hin. pose proof (create_house_fresh h s _ _ Hc _ Hin). lia. }
  split_and!; [done | apply set_id_same_fields | done |].
  by apply get_house_last.
Qed.

Lemma create_then_get_witness :
  two_rows ≠ [] ∧
  ∃ r : Row,
    create_house (body "Dallas" 250000) two_rows = (inr r, two_rows ++ [r]) ∧
    same_fields r (body "Dallas" 250000) ∧
    (id r ∉ ids two_rows) ∧
    get_house (id r) (two_rows ++ [r]) = (inr r, two_rows ++ [r]).
Proof.
  assert (Hne : two_rows ≠ []) by (vm_compute; discriminate).
  split; [exact Hne | exact (create_then_get (body "Dallas" 250000) two_rows Hne)].
Defined.

(** C8. When the largest id of the store is [M], [create_house] gives the
    new record the id [M + 1]; on the empty store it raises ([max] of an
    empty list) and returns no record. *)
Theorem create_assigns_max_plus_one (h : House) :
  (∀ (s : list Row) (M : Z),
      M ∈ ids s → (∀ x, x ∈ ids s → x ≤ M) →
      ∃ r : Row, create_house h s = (inr r, s ++ [r]) ∧ id r = M + 1) ∧
  create_house h [] = (inl ValueError, []).
Proof.
  split; [|reflexivity].
  intros s M Hin Hub.
  assert (Hm : py_max (ids s) = Some M) by (by apply py_max_spec).
  exists (set_id h (M + 1)). split; [by apply create_house_Some | reflexivity].
Qed.

Lemma create_assigns_max_plus_one_witness :
  (1 ∈ ids two_rows ∧ ∀ x, x ∈ ids two_rows → x ≤ 1) ∧
  (∃ r : Row,
      create_house (body "Dallas" 250000) two_rows = (inr r, two_rows ++ [r]) ∧
      id r = 1 + 1) ∧
  create_house (body "Dallas" 250000) [] = (inl ValueError, []).
Proof.
  assert (Hin : 1 ∈ ids two_rows) by (apply (list_elem_of_lookup_2 _ 1%nat); reflexivity).
  assert (Hub : ∀ x, x ∈ ids two_rows → x ≤ 1).
  { intros x Hx. vm_compute in Hx.
    apply elem_of_cons in Hx as [-> | Hx]; [lia |].
    apply elem_of_cons in Hx as [-> | Hx]; [lia |].
    by apply elem_of_nil in Hx. }
  destruct (create_assigns_max_plus_one (body "Dallas" 250000)) as [Hsome Hnone].
  split_and!; [exact Hin | exact Hub | exact (Hsome two_rows 1 Hin Hub) | exact Hnone].
Defined.

(** ** Not found *)

Lemma get_house_absent (house_id : Z) (s : list Row) :
  house_id ∉ ids s → get_house house_id s = (inl not_found, s).
Proof. intros H%find_id_None. unfold get_house. by rewrite H. Qed.

Lemma update_house_absent (house_id : Z) (h : House) (s : list Row) :
  house_id ∉ ids s → update_house house_id h s = (inl not_found, s).
Proof. intros H%find_id_None. unfold update_house. by rewrite H. Qed.

Lemma delete_house_absent (house_id : Z) (s : list Row) :
  house_id ∉ ids s → delete_house house_id s = (inl not_found, s).
Proof. intros H%find_id_None. unfold delete_house. by rewrite H. Qed.

Lemma get_house_present (house_id : Z) (s : list Row) :
  house_id ∈ ids s → ∃ r, get_house house_id s = (inr r, s) ∧ r ∈ s ∧ id r = house_id.
Proof.
  intros (i & r & Hf)%find_id_is_Some. exists r. unfold get_house. rewrite Hf.
  apply find_id_Some in Hf as (Hi & Hr & _).
  split_and!; [done | by eapply list_elem_of_lookup_2 | done].
Qed.

Lemma update_house_present (house_id : Z) (h : House) (s : list Row) :
  house_id ∈ ids s →
  ∃ i old, list_find (has_id house_id) s = Some (i, old) ∧
    update_house house_id h s =
      (inr (set_id h house_id), <[i := set_id h house_id]> s).
Proof.
  intros (i & r & Hf)%find_id_is_Some. exists i, r. split; [done |].
  unfold update_house. by rewrite Hf.
Qed.

Lemma delete_house_present (house_id : Z) (s : list Row) :
  house_id ∈ ids s →
  ∃ i old, list_find (has_id house_id) s = Some (i, old) ∧
    delete_house house_id s = (inr deleted_message, delete i s).
Proof.
  intros (i & r & Hf)%find_id_is_Some. exists i, r. split; [done |].
  unfold delete_house. by rewrite Hf.
Qed.

(** C6. Each of [get_house], [update_house] and [delete_house] raises the
    404 exception with detail "House not found" exactly when no record of
    the store has the requested id, and then the store is what it was. *)
Theorem not_found_iff_absent (house_id : Z) (h : House) (s : list Row) :
  (fst (get_house house_id s) = inl (HTTPException 404 "House not found")
     ↔ house_id ∉ ids s) ∧
  (fst (update_house house_id h s) = inl (HTTPException 404 "House not found")
     ↔ house_id ∉ ids s) ∧
  (fst (delete_house house_id s) = inl (HTTPException 404 "House not found")
     ↔ house_id ∉ ids s) ∧
  (house_id ∉ ids s →
     snd (get_house house_id s) = s ∧
     snd (update_house house_id h s) = s ∧
     snd (delete_house house_id s) = s).
Proof.
  destruct (decide (house_id ∈ ids s)) as [Hin | Hout].
  - destruct (get_house_present _ _ Hin) as (r & Hg & _).
    destruct (update_house_present _ h _ Hin) as (i & old & _ & Hu).
    destruct (delete_house_present _ _ Hin) as (j & old' & _ & Hd).
    rewrite Hg, Hu, Hd. simpl. split_and!; try (split; [discriminate | done]).
    done.
  - rewrite (get_house_absent _ _ Hout), (update_house_absent _ h _ Hout),
      (delete_house_absent _ _ Hout). simpl.
    split_and!; try (split; [done | reflexivity]). done.
Qed.

(** ** Update *)

Lemma update_keeps_first_match (house_id : Z) (s : list Row) (i : nat) (old r : Row) :
  list_find (has_id house_id) s = Some (i, old) → id r = house_id →
  list_find (has_id house_id) (<[i := r]> s) = Some (i, r).
Proof.
  intros Hf Hr. apply find_id_Some in Hf as (Hi & _ & Hbefore).
  apply list_find_Some. split_and!.
  - apply list_lookup_insert_eq. by eapply lookup_lt_Some.
  - exact Hr.
  - intros j y Hj Hlt. rewrite list_lookup_insert_ne in Hj by lia.
    by apply (Hbefore j y).
Qed.

(** C5. When the store holds the id, [update_house] puts at the place of
    the first record with that id a record whose id is the one of the path,
    whatever id the body carries, and whose other columns are those of the
    body; that record is the response, and [get_house] then reads it. *)
Theorem update_overwrites_all_but_id (house_id : Z) (h : House) (s : list Row) :
  house_id ∈ ids s →
  ∃ (i : nat) (old r : Row) (s' : list Row),
    update_house house_id h s = (inr r, s') ∧
    s !! i = Some old ∧ id old = house_id ∧
    s' = <[i := r]> s ∧ s' !! i = Some r ∧
    id r = house_id ∧ same_fields r h ∧
    get_house house_id s' = (inr r, s').
Proof.
  intros Hin. destruct (update_house_present _ h _ Hin) as (i & old & Hf & Hu).
  exists i, old, (set_id h house_id), (<[i := set_id h house_id]> s).
  pose proof (update_keeps_first_match _ _ _ _ (set_id h house_id) Hf eq_refl) as Hf'.
  apply find_id_Some in Hf as (Hi & Hold & _).
  refine (conj Hu (conj Hi (conj Hold (conj eq_refl (conj _ (conj eq_refl
            (conj (set_id_same_fields _ _) _))))))).
  - apply list_lookup_insert_eq. by eapply lookup_lt_Some.
  - unfold get_house. by rewrite Hf'.
Qed.

Lemma update_overwrites_all_but_id_witness :
  0 ∈ ids two_rows ∧
  ∃ (i : nat) (old r : Row) (s' : list Row),
    update_house 0 (body "Dallas" 250000) two_rows = (inr r, s') ∧
    two_rows !! i = Some old ∧ id old = 0 ∧
    s' = <[i := r]> two_rows ∧ s' !! i = Some r ∧
    id r = 0 ∧ same_fields r (body "Dallas" 250000) ∧
    get_house 0 s' = (inr r, s').
Proof.
  assert (Hin : 0 ∈ ids two_rows) by (apply (list_elem_of_lookup_2 _ 0%nat); reflexivity).
  split; [exact Hin |].
  exact (update_overwrites_all_but_id 0 (body "Dallas" 250000) two_rows Hin).
Defined.

(** C9. Running [update_house] with the same id and body a second time, on
    the store the first run left, gives the same response and leaves the
    same store. *)
Theorem update_idempotent (house_id : Z) (h : House) (s : list Row) :
  update_house house_id h (snd (update_house house_id h s)) =
  update_house house_id h s.
Proof.
  destruct (decide (house_id ∈ ids s)) as [Hin | Hout].
  - destruct (update_house_present _ h _ Hin) as (i & old & Hf & Hu).
    rewrite Hu. simpl.
    pose proof (update_keeps_first_match _ _ _ _ (set_id h house_id) Hf eq_refl) as Hf'.
    unfold update_house at 1. rewrite Hf'. by rewrite list_insert_insert_eq.
  - rewrite (update_house_absent _ h _ Hout). simpl.
    by apply update_house_absent.
Qed.

(** ** The ids stay distinct *)

Lemma load_records_ids (data : list CsvRow) :
  ids (load_records data) = Z.of_nat <$> seq 0 (length data).
Proof.
  unfold ids, load_records. rewrite fmap_imap.
  by rewrite <- (imap_seq_0 data Z.of_nat).
Qed.

Lemma load_records_unique (data : list CsvRow) : unique_ids (load_records data).
Proof.
  unfold unique_ids. rewrite load_records_ids.
  apply NoDup_fmap_2; [apply _ | apply NoDup_seq].
Qed.

Lemma create_house_unique (h : House) (s s' : list Row) (r : Row) :
  unique_ids s → create_house h s = (inr r, s') → unique_ids s'.
Proof.
  intros Hs Hc. pose proof (create_house_fresh _ _ _ _ Hc) as Hfresh.
  unfold create_house in Hc. destruct (py_max (ids s)) as [m|]; [|done].
  injection Hc as <- <-. unfold unique_ids, ids in *. rewrite fmap_app. simpl.
  apply NoDup_app. split_and!; [done | | apply NoDup_singleton].
  intros x Hx ->%list_elem_of_singleton. specialize (Hfresh _ Hx). simpl in Hfresh. lia.
Qed.

Lemma update_house_ids (house_id : Z) (h : House) (s : list Row) :
  ids (snd (update_house house_id h s)) = ids s.
Proof.
  unfold update_house.
  destruct (list_find (has_id house_id) s) as [[i old]|] eqn:Hf; [|done].
  apply find_id_Some in Hf as (Hi & Hold & _). simpl. unfold ids.
  rewrite list_fmap_insert. apply list_insert_id.
  rewrite list_lookup_fmap, Hi. simpl. by rewrite Hold.
Qed.

Lemma update_house_unique (house_id : Z) (h : House) (s : list Row) :
  unique_ids s → unique_ids (snd (update_house house_id h s)).
Proof. unfold unique_ids. by rewrite update_house_ids. Qed.

Lemma delete_house_sublist (house_id : Z) (s : list Row) :
  snd (delete_house house_id s) `sublist_of` s.
Proof.
  unfold delete_house.
  destruct (list_find (has_id house_id) s) as [[i old]|]; simpl;
    [apply sublist_delete | done].
Qed.

Lemma delete_house_unique (house_id : Z) (s : list Row) :
  unique_ids s → unique_ids (snd (delete_house house_id s)).
Proof.
  unfold unique_ids, ids. intros Hs. eapply sublist_NoDup; [exact Hs |].
  apply fmap_sublist, delete_house_sublist.
Qed.

(** Under distinct ids, removing the record at a position removes its id. *)
Lemma delete_removes_id (s : list Row) (i : nat) (old : Row) :
  unique_ids s → s !! i = Some old → id old ∉ ids (delete i s).
Proof.
  unfold unique_ids, ids. intros Hs Hi.
  rewrite <- (take_drop_middle s i old Hi) in Hs.
  rewrite fmap_app, fmap_cons in Hs.
  apply NoDup_app in Hs as (_ & Hleft & Hright).
  apply NoDup_cons in Hright as [Hright _].
  rewrite delete_take_drop, fmap_app. intros [Hl | Hr]%elem_of_app.
  - apply (Hleft _ Hl). apply elem_of_cons. by left.
  - by apply Hright.
Qed.

Lemma delete_house_removes_id (house_id : Z) (s s' : list Row) (msg : string) :
  unique_ids s → delete_house house_id s = (inr msg, s') → house_id ∉ ids s'.
Proof.
  intros Hs. unfold delete_house.
  destruct (list_find (has_id house_id) s) as [[i old]|] eqn:Hf; [|done].
  intros [= _ <-]. apply find_id_Some in Hf as (Hi & <- & _).
  by apply delete_removes_id.
Qed.

(** Every store the program can hold has distinct ids. *)
Lemma reachable_unique_ids (s : list Row) : reachable s → unique_ids s.
Proof.
  induction 1 as [data | house s _ IH | house_id house s _ IH | house_id s _ IH].
  - apply load_records_unique.
  - destruct (create_house house s) as [[e | r] s'] eqn:Hc; simpl.
    + unfold create_house in Hc. destruct (py_max (ids s)); [done |].
      by injection Hc as _ <-.
    + by eapply create_house_unique.
  - by apply update_house_unique.
  - by apply delete_house_unique.
Qed.

(** ** Listing only shows what the store holds *)

Lemma py_slice_sublist {A : Type} (l : list A) (start stop : Z) :
  py_slice l start stop `sublist_of` l.
Proof.
  unfold py_slice. etrans; [apply sublist_take | apply sublist_drop].
Qed.

Lemma apply_filters_sublist (c z : option string) (lo hi : option float)
    (s : list Row) :
  apply_filters c z lo hi s `sublist_of` s.
Proof.
  unfold apply_filters.
  destruct hi as [m|]; [etrans; [apply sublist_filter|]|];
  (destruct lo as [m'|]; [etrans; [apply sublist_filter|]|]);
  (destruct z as [z'|]; [destruct (str_truthy z'); [etrans; [apply sublist_filter|]|]|]);
  (destruct c as [c'|]; [destruct (str_truthy c'); [apply sublist_filter|]|]);
  reflexivity.
Qed.

Lemma get_houses_sublist (page size : Z) (c z : option string)
    (lo hi : option float) (s : list Row) :
  get_houses page size c z lo hi s `sublist_of` s.
Proof.
  unfold get_houses. etrans; [apply py_slice_sublist | apply apply_filters_sublist].
Qed.

(** ** Delete *)

(** C7. In a store with distinct ids that holds the id, [delete_house]
    succeeds; on the store it leaves, [get_house] on that id raises the 404
    and no call of [get_houses], whatever its filters and page, returns a
    record with that id. *)
Theorem deleted_is_gone (house_id : Z) (s : list Row) :
  unique_ids s → house_id ∈ ids s →
  ∃ s' : list Row,
    delete_house house_id s = (inr deleted_message, s') ∧
    get_house house_id s' = (inl not_found, s') ∧
    ∀ (page size : Z) (c z : option string) (lo hi : option float) (r : Row),
      r ∈ get_houses page size c z lo hi s' → id r ≠ house_id.
Proof.
  intros Hs Hin. destruct (delete_house_present _ _ Hin) as (i & old & Hf & Hd).
  exists (delete i s).
  pose proof (delete_house_removes_id _ _ _ _ Hs Hd) as Hgone.
  split_and!; [done | by apply get_house_absent |].
  intros page size c z lo hi r Hr Hid. apply Hgone. rewrite <- Hid.
  apply list_elem_of_fmap_2.
  eapply elem_of_sublist; [exact Hr | apply get_houses_sublist].
Qed.

Lemma deleted_is_gone_witness :
  unique_ids two_rows ∧ 0 ∈ ids two_rows ∧
  ∃ s' : list Row,
    delete_house 0 two_rows = (inr deleted_message, s') ∧
    get_house 0 s' = (inl not_found, s') ∧
    ∀ (page size : Z) (c z : option string) (lo hi : option float) (r : Row),
      r ∈ get_houses page size c z lo hi s' → id r ≠ 0.
Proof.
  assert (Hs : unique_ids two_rows) by apply load_records_unique.
  assert (Hin : 0 ∈ ids two_rows) by (apply (list_elem_of_lookup_2 _ 0%nat); reflexivity).
  split_and!; [exact Hs | exact Hin |].
  exact (deleted_is_gone 0 two_rows Hs Hin).
Defined.

(** ** Ids after a deletion *)

(** C2, as stated, fails.  The largest id of [two_rows] is 1 and a create
    gives id 2; once the record with id 2 is deleted, the next create gives
    id 2 again: the freed id is assigned a second time. *)
Lemma deleted_max_id_is_reused :
  ids two_rows = [0; 1] ∧
  create_house (body "Dallas" 250000) two_rows =
    (inr (set_id (body "Dallas" 250000) 2), three_rows) ∧
  delete_house 2 three_rows = (inr deleted_message, two_rows) ∧
  create_house (body "Austin" 199000) two_rows =
    (inr (set_id (body "Austin" 199000) 2),
     two_rows ++ [set_id (body "Austin" 199000) 2]).
Proof. split_and!; reflexivity. Qed.

(** C2, amended.  After [delete_house d] succeeded on a store with distinct
    ids, [d] is none of the ids left.  Whatever requests are served next,
    a create that then succeeds assigns one more than the largest id the
    list holds at that time.  That id is none of the ids then held; it is
    larger than [d] if an id that is [d] or more is then held, and at most
    [d] if every id then held is below [d]; it is [d] itself exactly when
    the largest id then held is [d - 1].  So a deleted id is assigned again
    as soon as a create finds [d - 1] on top, be it right after the delete
    of the largest id or after the ids above [d] were deleted too. *)
Theorem create_after_delete (d : Z) (h : House) (s s' s'' : list Row)
    (reqs : list request) (r : Row) :
  unique_ids s →
  delete_house d s = (inr deleted_message, s') →
  create_house h (serve_all reqs s') = (inr r, s'') →
  (d ∉ ids s') ∧
  py_max (ids (serve_all reqs s')) = Some (id r - 1) ∧
  (id r ∉ ids (serve_all reqs s')) ∧
  ((∃ x, x ∈ ids (serve_all reqs s') ∧ d ≤ x) → d < id r) ∧
  ((∀ x, x ∈ ids (serve_all reqs s') → x < d) → id r ≤ d) ∧
  (id r = d ↔ py_max (ids (serve_all reqs s')) = Some (d - 1)).
Proof.
  intros Hs Hd Hc.
  pose proof (delete_house_removes_id _ _ _ _ Hs Hd) as Hgone.
  pose proof (create_house_fresh _ _ _ _ Hc) as Hfresh.
  unfold create_house in Hc.
  destruct (py_max (ids (serve_all reqs s'))) as [m|] eqn:Hm; [|done].
  injection Hc as <- <-. simpl in *.
  apply py_max_spec in Hm as Hmax. destruct Hmax as [Hin Hub].
  split_and!.
  - exact Hgone.
  - f_equal. lia.
  - intros Hnew. specialize (Hfresh _ Hnew). lia.
  - intros (x & Hx & Hle). specialize (Hfresh _ Hx). lia.
  - intros Hbelow. specialize (Hbelow _ Hin). lia.
  - split.
    + intros Heq. f_equal. lia.
    + intros [= Heq]. lia.
Qed.

(** The ids 0, 1, 2: after the delete of 1 and then of 2, a create assigns
    the id 1 a second time. *)
Lemma create_after_delete_witness :
  let s' := snd (delete_house 1 three_rows) in
  let t := serve_all [DeleteHouse 2] s' in
  unique_ids three_rows ∧
  delete_house 1 three_rows = (inr deleted_message, s') ∧
  create_house (body "Austin" 199000) t =
    (inr (set_id (body "Austin" 199000) 1),
     t ++ [set_id (body "Austin" 199000) 1]) ∧
  ids t = [0] ∧
  (1 ∉ ids s') ∧
  py_max (ids t) = Some (1 - 1) ∧
  (1 ∉ ids t) ∧
  ((∃ x, x ∈ ids t ∧ 1 ≤ x) → 1 < 1) ∧
  ((∀ x, x ∈ ids t → x < 1) → 1 ≤ 1) ∧
  (1 = 1 ↔ py_max (ids t) = Some (1 - 1)).
Proof.
  intros s' t.
  assert (Hs : unique_ids three_rows).
  { eapply (create_house_unique (body "Dallas" 250000) two_rows);
      [apply load_records_unique | reflexivity]. }
  assert (Hd : delete_house 1 three_rows = (inr deleted_message, s'))
    by reflexivity.
  assert (Hc : create_house (body "Austin" 199000) t =
    (inr (set_id (body "Austin" 199000) 1),
     t ++ [set_id (body "Austin" 199000) 1]))
    by reflexivity.
  destruct (create_after_delete 1 (body "Austin" 199000) three_rows s' _
              [DeleteHouse 2] _ Hs Hd Hc) as (H1 & H2 & H3 & H4 & H5 & H6).
  exact (conj Hs (conj Hd (conj Hc (conj eq_refl
           (conj H1 (conj H2 (conj H3 (conj H4 (conj H5 H6))))))))).
Defined.

(** X9 (create, delete, create).  The scenario of C2 on any non-empty
    store: a create, the deletion of
    the record just created, and a second create, which is given the id of
    the first. *)
Lemma create_delete_create (h1 h2 : House) (s : list Row) :
  s ≠ [] →
  ∃ r1 r2 : Row,
    create_house h1 s = (inr r1, s ++ [r1]) ∧
    delete_house (id r1) (s ++ [r1]) = (inr deleted_message, s) ∧
    create_house h2 s = (inr r2, s ++ [r2]) ∧
    id r2 = id r1.
Proof.
  intros Hne. destruct (py_max_ids_is_Some s Hne) as [m Hm].
  exists (set_id h1 (m + 1)), (set_id h2 (m + 1)).
  pose proof (create_house_Some h1 s m Hm) as Hc1.
  split_and!; [done | | by apply create_house_Some | done].
  assert (Hfresh : list_find (has_id (m + 1)) s = None).
  { apply find_id_None. intros Hin.
    pose proof (create_house_fresh _ _ _ _ Hc1 _ Hin) as Hlt. simpl in Hlt. lia. }
  unfold delete_house. simpl.
  rewrite (list_find_app_r _ _ _ Hfresh). simpl.
  rewrite decide_True by reflexivity. simpl. f_equal.
  rewrite delete_take_drop.
  rewrite take_app_length. rewrite drop_ge by (rewrite length_app; simpl; lia).
  apply app_nil_r.
Qed.

(** ** Filters *)

Lemma str_truthy_true (x : string) : str_truthy x = true ↔ x ≠ EmptyString.
Proof. destruct x; simpl; split; congruence. Qed.

(** The filter stage keeps exactly the records of the store on which every
    applied filter holds. *)
Lemma apply_filters_elem (c z : option string) (lo hi : option float)
    (s : list Row) (d : Row) :
  d ∈ apply_filters c z lo hi s ↔ d ∈ s ∧ meets_applied c z lo hi d.
Proof.
  unfold apply_filters, meets_applied.
  destruct hi as [mh|]; [rewrite list_elem_of_filter; unfold price_le|];
  (destruct lo as [ml|]; [rewrite list_elem_of_filter; unfold price_ge|]);
  (destruct z as [z'|];
     [destruct (str_truthy z') eqn:Hz;
        [rewrite list_elem_of_filter; unfold statezip_is|]|]);
  (destruct c as [c'|];
     [destruct (str_truthy c') eqn:Hc;
        [rewrite list_elem_of_filter; unfold city_is|]|]);
  try (apply str_truthy_true in Hz);
  try (apply str_truthy_true in Hc);
  try (apply not_true_iff_false in Hz; rewrite str_truthy_true in Hz);
  try (apply not_true_iff_false in Hc; rewrite str_truthy_true in Hc);
  (split;
   [ intros H; repeat (destruct H as [? H]); split_and!; try done;
     intros ? [= <-]; try done
   | intros (Hd & H1 & H2 & H3 & H4); split_and?; eauto ]).
Qed.

(** The filter stage is one conjunctive filter; the order of the four
    comprehensions does not matter. *)
Lemma apply_filters_order_free (c z : option string) (lo hi : option float)
    (s : list Row) (d : Row) :
  d ∈ apply_filters c z lo hi s ↔
  d ∈ apply_filters None None lo hi (apply_filters c z None None s).
Proof.
  rewrite !apply_filters_elem. unfold meets_applied. split.
  - intros (Hd & H1 & H2 & H3 & H4). split_and!; try done.
  - intros ((Hd & H1 & H2 & _) & _ & _ & H3 & H4). split_and!; done.
Qed.

(** C4, as stated, fails.  With [city] supplied as the empty string the two
    records of [two_rows] are returned, and the city of the first,
    "Seattle", is not the empty string in any case. *)
Lemma empty_city_is_not_matched :
  get_houses 1 10 (Some EmptyString) None None None two_rows = two_rows ∧
  two_rows !! 0%nat = Some (set_id (csv_row "Seattle" "WA 98133" 313000) 0) ∧
  ¬ meets_supplied (Some EmptyString) None None None
      (set_id (csv_row "Seattle" "WA 98133" 313000) 0).
Proof.
  split_and!; [reflexivity | reflexivity |].
  intros (Hcity & _). specialize (Hcity EmptyString eq_refl). discriminate Hcity.
Qed.

(** C4, amended.  Every record that [get_houses] returns is a record of the
    store on which all applied filters hold at once: each of city and
    statezip that was supplied and is not the empty string equals the
    record's up to case, and each supplied price bound is met, bounds
    included. *)
Theorem listed_records_meet_filters (page size : Z) (c z : option string)
    (lo hi : option float) (s : list Row) (d : Row) :
  d ∈ get_houses page size c z lo hi s →
  d ∈ s ∧ meets_applied c z lo hi d.
Proof.
  intros Hd. apply apply_filters_elem.
  eapply elem_of_sublist; [exact Hd | apply py_slice_sublist].
Qed.

Lemma listed_records_meet_filters_witness :
  set_id (csv_row "Seattle" "WA 98133" 313000) 0
    ∈ get_houses 1 10 (Some "SEATTLE"%string) None (Some 300000%float) None two_rows ∧
  set_id (csv_row "Seattle" "WA 98133" 313000) 0 ∈ two_rows ∧
  meets_applied (Some "SEATTLE"%string) None (Some 300000%float) None
    (set_id (csv_row "Seattle" "WA 98133" 313000) 0).
Proof.
  assert (Hd : set_id (csv_row "Seattle" "WA 98133" 313000) 0
    ∈ get_houses 1 10 (Some "SEATTLE"%string) None (Some 300000%float) None two_rows).
  { apply (list_elem_of_lookup_2 _ 0%nat). reflexivity. }
  split; [exact Hd |].
  exact (listed_records_meet_filters 1 10 _ _ _ _ two_rows _ Hd).
Defined.

(** The example of the claim: city "Seattle" and a lower bound of 300000
    on three records. *)
Example seattle_from_300000 :
  ids (get_houses 1 10 (Some "Seattle"%string) None (Some 300000%float) None
         (load_records [csv_row "SEATTLE" "WA 98133" 313000;
                        csv_row "Kent" "WA 98042" 342000;
                        csv_row "seattle" "WA 98103" 299999.5])) = [0].
Proof. reflexivity. Qed.

(** The example of the spec: a lower bound of 300000 on prices 200000 and
    400000 keeps the second record only. *)
Example austin_from_300000 :
  ids (get_houses 1 10 None None (Some 300000%float) None
         (load_records [csv_row "Austin" "TX 73301" 200000;
                        csv_row "Austin" "TX 73301" 400000])) = [1].
Proof. reflexivity. Qed.

(** C10. A city supplied as the empty string is the same request as no
    city at all, and likewise for statezip: the filter is skipped, it is
    not a search for records with an empty city. *)
Theorem empty_string_filter_is_skipped (page size : Z) (c z : option string)
    (lo hi : option float) (s : list Row) :
  get_houses page size (Some EmptyString) z lo hi s =
    get_houses page size None z lo hi s ∧
  get_houses page size c (Some EmptyString) lo hi s =
    get_houses page size c None lo hi s.
Proof. split; reflexivity. Qed.

(** On [two_rows] the skipped filter returns both records, where a search
    for the empty city would return none. *)
Example empty_city_returns_all :
  get_houses 1 10 (Some EmptyString) None None None two_rows = two_rows ∧
  filter (city_is EmptyString) two_rows = [].
Proof. split; reflexivity. Qed.

(** ** Pagination *)

Lemma omap_fmap {A B C : Type} (f : B → option C) (g : A → B) (l : list A) :
  omap f (g <$> l) = omap (λ x, f (g x)) l.
Proof.
  induction l as [|x l IH]; csimpl; [done |]. by rewrite IH.
Qed.

Lemma omap_ext_all {A B : Type} (f g : A → option B) (l : list A) :
  (∀ x, f x = g x) → omap f l = omap g l.
Proof.
  intros Hfg. induction l as [|x l IH]; csimpl; [done |]. by rewrite Hfg, IH.
Qed.

Lemma omap_lookup_seq {A : Type} (l : list A) (j n : nat) :
  omap (λ k : nat, l !! k) (seq j n) = take n (drop j l).
Proof.
  revert j. induction n as [|n IH]; intros j; simpl; [done |].
  destruct (l !! j) as [x|] eqn:Hj.
  - rewrite IH. by rewrite (drop_S l x j Hj).
  - rewrite IH. apply lookup_ge_None in Hj.
    rewrite !drop_ge by lia. by rewrite !take_nil.
Qed.

Lemma positions_take_drop {A : Type} (l : list A) (a n : Z) :
  0 ≤ a → 0 ≤ n →
  positions l a (a + n) = take (Z.to_nat n) (drop (Z.to_nat a) l).
Proof.
  intros Ha Hn. unfold positions, seqZ.
  replace (a + n - a) with n by lia.
  rewrite <- omap_lookup_seq.
  replace (seq (Z.to_nat a) (Z.to_nat n))
    with (Nat.add (Z.to_nat a) <$> seq 0 (Z.to_nat n))
    by (rewrite fmap_add_seq; f_equal; lia).
  rewrite !omap_fmap. apply omap_ext_all.
  intros k. rewrite decide_True by lia. f_equal. lia.
Qed.

Lemma positions_empty_range {A : Type} (l : list A) (a b : Z) :
  b ≤ a → positions l a b = [].
Proof.
  intros Hle. unfold positions, seqZ.
  replace (Z.to_nat (b - a)) with 0%nat by lia. done.
Qed.

(** For bounds that are not negative, Python's slice is the slice by
    positions. *)
Lemma py_slice_take_drop {A : Type} (l : list A) (a n : Z) :
  0 ≤ a → 0 ≤ n →
  py_slice l a (a + n) = take (Z.to_nat n) (drop (Z.to_nat a) l).
Proof.
  intros Ha Hn. unfold py_slice, slice_index.
  rewrite !(proj2 (Z.ltb_ge _ 0)) by lia.
  destruct (Z.le_gt_cases (Z.of_nat (length l)) a) as [Hout | Hin].
  - rewrite Z.min_r by lia. rewrite !drop_ge by lia. by rewrite !take_nil.
  - rewrite (Z.min_l a) by lia.
    destruct (Z.le_gt_cases (a + n) (Z.of_nat (length l))) as [Hfit | Hover].
    + rewrite Z.min_l by lia. f_equal. lia.
    + rewrite Z.min_r by lia.
      rewrite !take_ge; [done | |]; rewrite length_drop; lia.
Qed.

Lemma py_slice_positions {A : Type} (l : list A) (a n : Z) :
  0 ≤ a → 0 ≤ n → py_slice l a (a + n) = positions l a (a + n).
Proof.
  intros Ha Hn. by rewrite py_slice_take_drop, positions_take_drop.
Qed.

(** X11 (the page window).  For a page above 0 and a size from 0 to 100,
    [get_houses] returns the records at the positions [(page-1)*size] up to, not including,
    [(page-1)*size + size] of the filtered records, in store order; none
    when the filtered records end before the first of these positions. *)
Lemma get_houses_page (page size : Z) (c z : option string)
    (lo hi : option float) (s : list Row) :
  0 < page → 0 ≤ size → size ≤ 100 →
  get_houses page size c z lo hi s =
    positions (apply_filters c z lo hi s) ((page - 1) * size) ((page - 1) * size + size) ∧
  (Z.of_nat (length (apply_filters c z lo hi s)) ≤ (page - 1) * size →
   get_houses page size c z lo hi s = []).
Proof.
  intros Hpage Hsize _. unfold get_houses. split.
  - apply py_slice_positions; nia.
  - intros Hout. rewrite py_slice_take_drop by nia.
    rewrite drop_ge by lia. apply take_nil.
Qed.

(** The first page of ten on an unfiltered store of at least ten records:
    ten records, those at positions 0 to 9. *)
Lemma get_houses_first_ten (s : list Row) :
  (10 ≤ length s)%nat →
  get_houses 1 10 None None None None s = take 10 s ∧
  length (get_houses 1 10 None None None None s) = 10%nat ∧
  ∀ k : nat, (k < 10)%nat → get_houses 1 10 None None None None s !! k = s !! k.
Proof.
  intros Hlen.
  assert (Heq : get_houses 1 10 None None None None s = take 10 s).
  { unfold get_houses, apply_filters.
    apply (py_slice_take_drop s 0 10); lia. }
  rewrite Heq. split_and!; [done | rewrite length_take; lia |].
  intros k Hk. by apply lookup_take_lt.
Qed.

(** C3 fails on the code for a size below 0, which the declared bound
    [le=100] lets through.  The request [page=1, size=-1] on [two_rows]
    passes validation and is answered with the first record, where the
    positions from 0 up to, not including, -1 hold no record. *)
Theorem negative_size_is_not_a_page :
  query_ok 1 (-1) = true ∧
  houses_route (Some 1) (Some (-1)) None None None None two_rows =
    (inr [set_id (csv_row "Seattle" "WA 98133" 313000) 0], two_rows) ∧
  positions two_rows ((1 - 1) * -1) ((1 - 1) * -1 + -1) = [].
Proof. split_and!; reflexivity. Qed.

(** * Further properties of the handlers *)

(** ** What a search by id answers *)

Lemma get_house_first (house_id : Z) (s : list Row) :
  get_house house_id s =
    (match first_with_id house_id s with
     | Some r => inr r
     | None => inl not_found
     end, s).
Proof.
  unfold get_house, first_with_id.
  by destruct (list_find (has_id house_id) s) as [[i r]|].
Qed.

Lemma first_with_id_cons (x : Z) (a : Row) (l : list Row) :
  first_with_id x (a :: l) = if decide (id a = x) then Some a else first_with_id x l.
Proof.
  unfold first_with_id. simpl.
  destruct (decide (has_id x a)) as [H | H]; unfold has_id in H; simpl.
  - by rewrite decide_True.
  - rewrite decide_False by done.
    by destruct (list_find (has_id x) l) as [[i r]|].
Qed.

Lemma first_with_id_app (x : Z) (l1 l2 : list Row) :
  first_with_id x (l1 ++ l2) =
    match first_with_id x l1 with
    | Some r => Some r
    | None => first_with_id x l2
    end.
Proof.
  induction l1 as [|a l1 IH]; [done |].
  rewrite <- app_comm_cons, !first_with_id_cons.
  by destruct (decide (id a = x)).
Qed.

(** Replacing or removing a record that does not carry the id changes
    nothing for a search of that id. *)
Lemma first_with_id_middle (x : Z) (l1 l2 : list Row) (a : Row) :
  id a ≠ x → first_with_id x (l1 ++ a :: l2) = first_with_id x (l1 ++ l2).
Proof.
  intros Ha. rewrite !first_with_id_app, first_with_id_cons.
  by rewrite decide_False.
Qed.

Lemma first_with_id_absent (x : Z) (s : list Row) :
  x ∉ ids s → first_with_id x s = None.
Proof. intros H%find_id_None. unfold first_with_id. by rewrite H. Qed.

(** ** Each write touches one record *)

(** X6 (create).  A successful [create_house] makes the list one longer by
    appending, with the new id after the old ids, and every id other than
    the new one is answered by [get_house] as before. *)
Theorem create_keeps_other_records (h : House) (s s' : list Row) (r : Row) :
  create_house h s = (inr r, s') →
  length s' = S (length s) ∧
  ids s' = ids s ++ [id r] ∧
  ∀ x : Z, x ≠ id r → fst (get_house x s') = fst (get_house x s).
Proof.
  unfold create_house. destruct (py_max (ids s)) as [m|]; [|done].
  intros [= <- <-]. split_and!.
  - rewrite length_app. simpl. lia.
  - unfold ids. by rewrite fmap_app.
  - intros x Hx. rewrite !get_house_first. simpl.
    rewrite first_with_id_app, first_with_id_cons.
    rewrite decide_False by (simpl in *; congruence).
    by destruct (first_with_id x s).
Qed.

Lemma create_keeps_other_records_witness :
  create_house (body "Dallas" 250000) two_rows =
    (inr (set_id (body "Dallas" 250000) 2), three_rows) ∧
  length three_rows = S (length two_rows) ∧
  ids three_rows = ids two_rows ++ [id (set_id (body "Dallas" 250000) 2)] ∧
  ∀ x : Z, x ≠ id (set_id (body "Dallas" 250000) 2) →
    fst (get_house x three_rows) = fst (get_house x two_rows).
Proof.
  assert (Hc : create_house (body "Dallas" 250000) two_rows =
    (inr (set_id (body "Dallas" 250000) 2), three_rows)) by reflexivity.
  split; [exact Hc |].
  exact (create_keeps_other_records _ _ _ _ Hc).
Defined.

(** X7 (update).  [update_house] leaves the length of the list and the ids,
    position by position, as they were, and every id other than the one of
    the path is answered by [get_house] as before. *)
Theorem update_keeps_other_records (house_id : Z) (h : House) (s : list Row) :
  length (snd (update_house house_id h s)) = length s ∧
  ids (snd (update_house house_id h s)) = ids s ∧
  ∀ x : Z, x ≠ house_id →
    fst (get_house x (snd (update_house house_id h s))) = fst (get_house x s).
Proof.
  split_and!.
  - rewrite <- (length_fmap id), update_house_ids. apply length_fmap.
  - apply update_house_ids.
  - intros x Hx. rewrite !get_house_first. simpl. unfold update_house.
    destruct (list_find (has_id house_id) s) as [[i old]|] eqn:Hf; [|done].
    apply find_id_Some in Hf as (Hi & Hold & _). simpl.
    rewrite insert_take_drop by (by eapply lookup_lt_Some).
    rewrite <- (take_drop_middle s i old Hi) at 3.
    rewrite !first_with_id_middle; [done | congruence | simpl; congruence].
Qed.

(** X8 (delete).  Every id other than the one of the path is answered by
    [get_house] after [delete_house] as before, and when the id is held the
    list gets one shorter. *)
Theorem delete_keeps_other_records (house_id : Z) (s : list Row) :
  (∀ x : Z, x ≠ house_id →
     fst (get_house x (snd (delete_house house_id s))) = fst (get_house x s)) ∧
  (house_id ∈ ids s → length s = S (length (snd (delete_house house_id s)))).
Proof.
  split.
  - intros x Hx. rewrite !get_house_first. simpl. unfold delete_house.
    destruct (list_find (has_id house_id) s) as [[i old]|] eqn:Hf; [|done].
    apply find_id_Some in Hf as (Hi & Hold & _). simpl.
    rewrite delete_take_drop.
    rewrite <- (take_drop_middle s i old Hi) at 3.
    rewrite first_with_id_middle; [done | congruence].
  - intros (i & old & Hf & Hd)%delete_house_present. rewrite Hd. simpl.
    apply find_id_Some in Hf as (Hi & _).
    rewrite length_delete by (by eexists).
    apply lookup_lt_Some in Hi. lia.
Qed.

(** ** After start-up *)

Lemma load_records_lookup (data : list CsvRow) (i : nat) :
  load_records data !! i = (λ row, set_id row (Z.of_nat i)) <$> data !! i.
Proof. unfold load_records. apply list_lookup_imap. Qed.

(** X1 (load then get).  The record built from line [i] of the CSV file
    (counting from 0) is the one [get_house] answers with for the id [i],
    right after start-up. *)
Theorem get_house_after_load (data : list CsvRow) (i : nat) (row : CsvRow) :
  data !! i = Some row →
  get_house (Z.of_nat i) (load_records data) =
    (inr (set_id row (Z.of_nat i)), load_records data).
Proof.
  intros Hi. unfold get_house.
  assert (Hf : list_find (has_id (Z.of_nat i)) (load_records data) =
               Some (i, set_id row (Z.of_nat i))).
  { apply list_find_Some. split_and!.
    - by rewrite load_records_lookup, Hi.
    - reflexivity.
    - intros j y Hj Hlt. rewrite load_records_lookup in Hj.
      destruct (data !! j) as [row'|]; [|done].
      injection Hj as <-. unfold has_id. simpl. lia. }
  by rewrite Hf.
Qed.

Lemma get_house_after_load_witness :
  [csv_row "Seattle" "WA 98133" 313000; csv_row "Kent" "WA 98042" 342000] !! 1%nat =
    Some (csv_row "Kent" "WA 98042" 342000) ∧
  get_house (Z.of_nat 1) two_rows =
    (inr (set_id (csv_row "Kent" "WA 98042" 342000) (Z.of_nat 1)), two_rows).
Proof.
  split; [reflexivity |].
  apply (get_house_after_load
           [csv_row "Seattle" "WA 98133" 313000; csv_row "Kent" "WA 98042" 342000]
           1 (csv_row "Kent" "WA 98042" 342000)).
  reflexivity.
Defined.

Lemma py_max_load (data : list CsvRow) :
  data ≠ [] →
  py_max (ids (load_records data)) = Some (Z.of_nat (length data) - 1).
Proof.
  intros Hne. assert (0 < length data)%nat by (destruct data; [done | simpl; lia]).
  apply py_max_spec. rewrite load_records_ids. split.
  - apply list_elem_of_fmap. exists (length data - 1)%nat. split; [lia |].
    apply elem_of_seq. lia.
  - intros x (k & -> & Hk%elem_of_seq)%list_elem_of_fmap. lia.
Qed.

(** X2 (load then create).  Right after start-up from a CSV file of [n]
    lines, [n] at least 1, the first [create_house] assigns the id [n];
    from an empty file it raises and stores nothing. *)
Theorem create_after_load (h : House) (data : list CsvRow) :
  (data ≠ [] →
   create_house h (load_records data) =
     (inr (set_id h (Z.of_nat (length data))),
      load_records data ++ [set_id h (Z.of_nat (length data))])) ∧
  (data = [] → create_house h (load_records data) = (inl ValueError, [])).
Proof.
  split.
  - intros Hne. rewrite (create_house_Some h _ _ (py_max_load data Hne)).
    by replace (Z.of_nat (length data) - 1 + 1) with (Z.of_nat (length data)) by lia.
  - by intros ->.
Qed.

(** ** Sequences of requests *)

Lemma StronglySorted_sublist {A : Type} (R : relation A) (l1 l2 : list A) :
  l1 `sublist_of` l2 → StronglySorted R l2 → StronglySorted R l1.
Proof.
  induction 1 as [| x l1 l2 Hsub IH | x l1 l2 Hsub IH]; intros Hs.
  - constructor.
  - apply StronglySorted_inv in Hs as [Hs Hall]. constructor; [by apply IH |].
    rewrite Forall_forall in *. intros y Hy. apply Hall.
    by eapply elem_of_sublist.
  - apply StronglySorted_inv in Hs as [Hs _]. by apply IH.
Qed.

Lemma serve_reachable (req : request) (s : list Row) :
  reachable s → reachable (serve req s).
Proof.
  intros Hs. destruct req as [p n c z lo hi | h | x | x h | x]; simpl.
  - unfold houses_route. by destruct (query_ok _ _).
  - by constructor.
  - unfold get_house. by destruct (list_find _ _) as [[i r]|].
  - by constructor.
  - by constructor.
Qed.

Lemma serve_all_reachable (reqs : list request) (s : list Row) :
  reachable s → reachable (serve_all reqs s).
Proof.
  revert s. induction reqs as [|req reqs IH]; intros s Hs; [done |].
  simpl. by apply IH, serve_reachable.
Qed.

Lemma create_house_snd (h : House) (s : list Row) :
  snd (create_house h s) = s ∨
  ∃ r, create_house h s = (inr r, s ++ [r]) ∧ ∀ x, x ∈ ids s → x < id r.
Proof.
  destruct (py_max (ids s)) as [m|] eqn:Hm.
  - right. exists (set_id h (m + 1)).
    pose proof (create_house_Some h s m Hm) as Hc. split; [done |].
    by apply (create_house_fresh h s _ _ Hc).
  - left. unfold create_house. by rewrite Hm.
Qed.

Lemma reachable_ids_increasing (s : list Row) :
  reachable s → StronglySorted Z.lt (ids s).
Proof.
  induction 1 as [data | house s _ IH | house_id house s _ IH | house_id s _ IH].
  - rewrite load_records_ids.
    apply (StronglySorted_fmap _ lt); [intros; lia |].
    generalize 0%nat. induction (length data) as [|n IHn]; intros j; simpl.
    + constructor.
    + constructor; [apply IHn |]. apply Forall_forall.
      intros k Hk%elem_of_seq. lia.
  - destruct (create_house_snd house s) as [-> | (r & -> & Hfresh)]; [done |].
    simpl. unfold ids. rewrite fmap_app. apply StronglySorted_app_2.
    + intros x1 x2 Hx1 ->%list_elem_of_singleton. by apply Hfresh.
    + exact IH.
    + repeat constructor.
  - by rewrite update_house_ids.
  - eapply StronglySorted_sublist; [|exact IH].
    apply fmap_sublist, delete_house_sublist.
Qed.

Lemma reachable_ids_nonneg (s : list Row) :
  reachable s → ∀ x, x ∈ ids s → 0 ≤ x.
Proof.
  induction 1 as [data | house s _ IH | house_id house s _ IH | house_id s _ IH];
    intros x Hx.
  - rewrite load_records_ids in Hx.
    apply list_elem_of_fmap in Hx as (k & -> & _). lia.
  - destruct (create_house_snd house s) as [Hsame | (r & Hc & Hfresh)].
    + rewrite Hsame in Hx. by apply IH.
    + rewrite Hc in Hx. simpl in Hx. unfold ids in Hx. rewrite fmap_app in Hx.
      apply elem_of_app in Hx as [Hx | ->%list_elem_of_singleton]; [by apply IH |].
      unfold create_house in Hc. destruct (py_max (ids s)) as [m|] eqn:Hm; [|done].
      injection Hc as <- _. simpl. apply py_max_spec in Hm as [Hm _].
      specialize (IH m Hm). lia.
  - rewrite update_house_ids in Hx. by apply IH.
  - apply IH. eapply elem_of_sublist; [exact Hx |].
    apply fmap_sublist, delete_house_sublist.
Qed.

(** X3 (ids ascend).  Whatever requests were served since start-up, the ids
    of the list are strictly ascending in list order (so no two records
    share an id), and so are the ids of every answer of [get_houses]. *)
Theorem served_ids_ascend (data : list CsvRow) (reqs : list request)
    (page size : Z) (c z : option string) (lo hi : option float) :
  StronglySorted Z.lt (ids (serve_all reqs (load_records data))) ∧
  unique_ids (serve_all reqs (load_records data)) ∧
  StronglySorted Z.lt
    (ids (get_houses page size c z lo hi (serve_all reqs (load_records data)))).
Proof.
  assert (Hr : reachable (serve_all reqs (load_records data)))
    by apply serve_all_reachable, reach_load.
  pose proof (reachable_ids_increasing _ Hr) as Hs.
  split_and!; [done | by apply reachable_unique_ids |].
  eapply StronglySorted_sublist; [|exact Hs].
  apply fmap_sublist, get_houses_sublist.
Qed.

(** X4 (no negative id).  Whatever requests were served since start-up, no
    record has an id below 0, so [get_house], [update_house] and
    [delete_house] on a negative id all raise the 404 and change nothing. *)
Theorem negative_id_is_never_found (data : list CsvRow) (reqs : list request)
    (house_id : Z) (h : House) :
  house_id < 0 →
  let s := serve_all reqs (load_records data) in
  get_house house_id s = (inl not_found, s) ∧
  update_house house_id h s = (inl not_found, s) ∧
  delete_house house_id s = (inl not_found, s).
Proof.
  intros Hneg s.
  assert (Hout : house_id ∉ ids s).
  { intros Hin. assert (Hr : reachable s) by apply serve_all_reachable, reach_load.
    pose proof (reachable_ids_nonneg s Hr _ Hin). lia. }
  split_and!; [by apply get_house_absent | by apply update_house_absent
              | by apply delete_house_absent].
Qed.

Lemma negative_id_is_never_found_witness :
  -1 < 0 ∧
  let s := serve_all [CreateHouse (body "Dallas" 250000); DeleteHouse 0] two_rows in
  get_house (-1) s = (inl not_found, s) ∧
  update_house (-1) (body "Austin" 199000) s = (inl not_found, s) ∧
  delete_house (-1) s = (inl not_found, s).
Proof.
  split; [lia |].
  apply (negative_id_is_never_found
           [csv_row "Seattle" "WA 98133" 313000; csv_row "Kent" "WA 98042" 342000]
           [CreateHouse (body "Dallas" 250000); DeleteHouse 0]
           (-1) (body "Austin" 199000)).
  lia.
Defined.

(** X5 (the empty list is final).  Once [data_records] is empty it stays
    empty whatever requests follow: every create raises, every update and
    delete is a 404, and reads change nothing. *)
Theorem empty_store_stays_empty (reqs : list request) :
  serve_all reqs [] = [].
Proof.
  induction reqs as [|req reqs IH]; [done |].
  simpl. replace (serve req []) with (@nil Row); [exact IH |].
  destruct req as [p n c z lo hi | h | x | x h | x]; simpl; try done.
  unfold houses_route. by destruct (query_ok _ _).
Qed.

(** ** Pages *)

(** X12 (page length).  For a page above 0 and a size that is not negative,
    [get_houses] returns at most [size] records. *)
Theorem page_has_at_most_size_records (page size : Z) (c z : option string)
    (lo hi : option float) (s : list Row) :
  0 < page → 0 ≤ size →
  Z.of_nat (length (get_houses page size c z lo hi s)) ≤ size.
Proof.
  intros Hpage Hsize. unfold get_houses.
  rewrite py_slice_take_drop by nia. rewrite length_take. lia.
Qed.

Lemma page_has_at_most_size_records_witness :
  0 < 1 ∧ 0 ≤ 1 ∧
  Z.of_nat (length (get_houses 1 1 None None None None two_rows)) ≤ 1.
Proof.
  split_and!; [lia | lia |].
  apply (page_has_at_most_size_records 1 1 None None None None two_rows); lia.
Defined.

(** X13 (pages tile the result).  For a size that is not negative, the pages
    1, 2, ..., k laid end to end are the first [k * size] filtered records:
    no record is skipped between two pages and none is returned twice. *)
Theorem pages_laid_end_to_end (size : Z) (k : nat) (c z : option string)
    (lo hi : option float) (s : list Row) :
  0 ≤ size →
  mjoin ((λ page, get_houses page size c z lo hi s) <$> seqZ 1 (Z.of_nat k)) =
    take (k * Z.to_nat size) (apply_filters c z lo hi s).
Proof.
  intros Hsize. induction k as [|k IH].
  - by rewrite Nat.mul_0_l, take_0.
  - rewrite seqZ_S, fmap_app, join_app, IH. simpl. rewrite app_nil_r.
    unfold get_houses. rewrite py_slice_take_drop by nia.
    replace (Z.to_nat ((1 + Z.of_nat k - 1) * size)) with (k * Z.to_nat size)%nat by nia.
    rewrite take_take_drop. f_equal. lia.
Qed.

Lemma pages_laid_end_to_end_witness :
  0 ≤ 1 ∧
  mjoin ((λ page, get_houses page 1 None None None None three_rows)
           <$> seqZ 1 (Z.of_nat 2)) =
    take (2 * Z.to_nat 1) (apply_filters None None None None three_rows).
Proof.
  split; [lia |].
  apply (pages_laid_end_to_end 1 2 None None None None three_rows). lia.
Defined.



(** ** Filters *)

Lemma lower_truthy (x : string) : str_truthy (lower x) = str_truthy x.
Proof. by destruct x. Qed.

(** X16 (the case of the query).  Two cities that differ in case only, and
    two statezips that differ in case only, select the same records. *)
Theorem query_case_is_ignored (page size : Z) (c c' z z' : string)
    (lo hi : option float) (s : list Row) :
  lower c = lower c' → lower z = lower z' →
  get_houses page size (Some c) (Some z) lo hi s =
  get_houses page size (Some c') (Some z') lo hi s.
Proof.
  intros Hc Hz. unfold get_houses. f_equal. unfold apply_filters.
  rewrite <- (lower_truthy c), <- (lower_truthy z), Hc, Hz, !lower_truthy.
  rewrite (list_filter_iff (city_is c) (city_is c'))
    by (intros d; unfold city_is; by rewrite Hc).
  assert (Hzf : ∀ l : list Row, filter (statezip_is z) l = filter (statezip_is z') l).
  { intros l. apply list_filter_iff. intros d. unfold statezip_is. by rewrite Hz. }
  destruct (str_truthy c'), (str_truthy z'); by rewrite ?Hzf.
Qed.

Lemma query_case_is_ignored_witness :
  lower "SEATTLE" = lower "seattle" ∧ lower "wa 98133" = lower "WA 98133" ∧
  get_houses 1 10 (Some "SEATTLE"%string) (Some "wa 98133"%string) None None two_rows =
  get_houses 1 10 (Some "seattle"%string) (Some "WA 98133"%string) None None two_rows.
Proof.
  assert (Hc : lower "SEATTLE" = lower "seattle") by reflexivity.
  assert (Hz : lower "wa 98133" = lower "WA 98133") by reflexivity.
  split_and!; [exact Hc | exact Hz |].
  exact (query_case_is_ignored 1 10 _ _ _ _ None None two_rows Hc Hz).
Defined.

Lemma filter_swap {A : Type} (P Q : A → Prop)
    `{∀ x, Decision (P x)} `{∀ x, Decision (Q x)} (l : list A) :
  filter P (filter Q l) = filter Q (filter P l).
Proof.
  rewrite !list_filter_filter. apply list_filter_iff. intros x. tauto.
Qed.

(** X17 (the order of the filters).  Filtering by the price bounds first and
    by city and statezip afterwards gives the same list as the order the
    handler uses. *)
Theorem filters_in_any_order (c z : option string) (lo hi : option float)
    (s : list Row) :
  apply_filters c z lo hi s =
  apply_filters c z None None (apply_filters None None lo hi s).
Proof.
  unfold apply_filters.
  destruct c as [c'|]; [destruct (str_truthy c')|];
  (destruct z as [z'|]; [destruct (str_truthy z')|]);
  destruct lo as [ml|], hi as [mh|]; try reflexivity;
  rewrite ?(filter_swap (city_is _) (price_le _));
  rewrite ?(filter_swap (statezip_is _) (price_le _));
  rewrite ?(filter_swap (city_is _) (price_ge _));
  rewrite ?(filter_swap (statezip_is _) (price_ge _));
  reflexivity.
Qed.

(** ** Create and delete *)

Lemma create_delete_create_witness :
  two_rows ≠ [] ∧
  ∃ r1 r2 : Row,
    create_house (body "Dallas" 250000) two_rows = (inr r1, two_rows ++ [r1]) ∧
    delete_house (id r1) (two_rows ++ [r1]) = (inr deleted_message, two_rows) ∧
    create_house (body "Austin" 199000) two_rows = (inr r2, two_rows ++ [r2]) ∧
    id r2 = id r1.
Proof.
  assert (Hne : two_rows ≠ []) by (vm_compute; discriminate).
  split; [exact Hne |].
  exact (create_delete_create (body "Dallas" 250000) (body "Austin" 199000)
           two_rows Hne).
Defined.

(** X10 (delete twice).  In a list with distinct ids that holds the id, a
    first [delete_house] succeeds and a second one, on the list the first
    left, raises the 404 and changes nothing more. *)
Theorem delete_twice (house_id : Z) (s : list Row) :
  unique_ids s → house_id ∈ ids s →
  ∃ s' : list Row,
    delete_house house_id s = (inr deleted_message, s') ∧
    delete_house house_id s' = (inl not_found, s').
Proof.
  intros Hs Hin. destruct (delete_house_present _ _ Hin) as (i & old & _ & Hd).
  exists (delete i s). split; [done |].
  apply delete_house_absent. by eapply delete_house_removes_id.
Qed.

Lemma delete_twice_witness :
  unique_ids two_rows ∧ 1 ∈ ids two_rows ∧
  ∃ s' : list Row,
    delete_house 1 two_rows = (inr deleted_message, s') ∧
    delete_house 1 s' = (inl not_found, s').
Proof.
  assert (Hs : unique_ids two_rows) by apply load_records_unique.
  assert (Hin : 1 ∈ ids two_rows) by (apply (list_elem_of_lookup_2 _ 1%nat); reflexivity).
  split_and!; [exact Hs | exact Hin |].
  exact (delete_twice 1 two_rows Hs Hin).
Defined.

(** ** Every match is listed *)

(** X14 (nothing is left out).  For a size above 0, every record of the list
    on which all applied filters hold is returned on some page above 0. *)
Theorem every_match_is_on_a_page (size : Z) (c z : option string)
    (lo hi : option float) (s : list Row) (d : Row) :
  0 < size → d ∈ s → meets_applied c z lo hi d →
  ∃ page : Z, 0 < page ∧ d ∈ get_houses page size c z lo hi s.
Proof.
  intros Hsize Hd Hmeets.
  assert (Hin : d ∈ apply_filters c z lo hi s) by (by apply apply_filters_elem).
  apply list_elem_of_lookup_1 in Hin as [i Hi].
  pose proof (Z.div_mod (Z.of_nat i) size ltac:(lia)) as Hdm.
  pose proof (Z.mod_pos_bound (Z.of_nat i) size Hsize) as Hmod.
  pose proof (Z.div_pos (Z.of_nat i) size ltac:(lia) Hsize) as Hdiv.
  exists (Z.of_nat i / size + 1). split; [lia |].
  unfold get_houses. rewrite py_slice_take_drop by nia.
  apply (list_elem_of_lookup_2 _ (Z.to_nat (Z.of_nat i mod size))).
  rewrite lookup_take_lt by lia. rewrite lookup_drop.
  replace (Z.to_nat ((Z.of_nat i / size + 1 - 1) * size) +
           Z.to_nat (Z.of_nat i mod size))%nat with i by nia.
  exact Hi.
Qed.

Lemma every_match_is_on_a_page_witness :
  0 < 1 ∧
  set_id (csv_row "Kent" "WA 98042" 342000) 1 ∈ two_rows ∧
  meets_applied None None (Some 300000%float) None
    (set_id (csv_row "Kent" "WA 98042" 342000) 1) ∧
  ∃ page : Z, 0 < page ∧
    set_id (csv_row "Kent" "WA 98042" 342000) 1
      ∈ get_houses page 1 None None (Some 300000%float) None two_rows.
Proof.
  assert (Hd : set_id (csv_row "Kent" "WA 98042" 342000) 1 ∈ two_rows)
    by (apply (list_elem_of_lookup_2 _ 1%nat); reflexivity).
  assert (Hm : meets_applied None None (Some 300000%float) None
                 (set_id (csv_row "Kent" "WA 98042" 342000) 1)).
  { unfold meets_applied. split_and!; intros ? [=]. subst. reflexivity. }
  split_and!; [lia | exact Hd | exact Hm |].
  apply (every_match_is_on_a_page 1 None None (Some 300000%float) None two_rows _);
    [lia | exact Hd | exact Hm].
Defined.

Lemma get_houses_page_witness :
  0 < 2 ∧ 0 ≤ 1 ∧ 1 ≤ 100 ∧
  get_houses 2 1 None None None None three_rows =
    positions (apply_filters None None None None three_rows)
      ((2 - 1) * 1) ((2 - 1) * 1 + 1) ∧
  (Z.of_nat (length (apply_filters None None None None three_rows)) ≤ (2 - 1) * 1 →
   get_houses 2 1 None None None None three_rows = []).
Proof.
  split_and!; [lia | lia | lia | |];
    apply (get_houses_page 2 1 None None None None three_rows); lia.
Defined.
